(** * app.py: the last-video resolver and the three Flask handlers

    A shallow embedding of [src/app.py].  The module is Flask glue around
    three collaborators (the Google Apps Script endpoint, Cloudinary and the
    file [last_video.json]); every function is translated statement by
    statement into a small monad that threads the observable world and
    carries Python exceptions.

    Modelling choices:
    - JSON texts are kept parsed: a well-formed text is the value it parses
      to, so that [json.load] reads back what [json.dump] wrote;
    - the collaborators' answers (GET, POST, upload, write of the cache
      file) are inputs of a call, gathered in [env]; whether the cache file
      can be read is part of the state of that file;
    - one request is handled at a time;
    - [render_template] and [jsonify] are constructors of the response;
    - the routes are first given with a [print] that succeeds and a
      [requests.post] that takes every payload; module [Strict] repeats
      them on a console that can refuse a line and with the payload check
      of [requests]. *)

From Stdlib Require Import String List Bool ZArith.
From Stdlib Require Import SpecFloat.
Import ListNotations.
Local Open Scope string_scope.
Local Open Scope list_scope.
#[local] Set Warnings "-register-all".

(** ** Python values *)

(** What [json.load], [response.json()] and [request.get_json()] produce,
    and what [json.dump] and [jsonify] accept: [None], [bool], [int],
    [float], [str], [list] and [dict] with string keys.  A dict keeps its
    insertion order, as in Python. *)
Inductive json : Type :=
| JNull
| JBool (b : bool)
| JInt (z : Z)
| JFloat (f : spec_float)
| JStr (s : string)
| JArr (l : list json)
| JObj (kvs : list (string * json)).

Definition dict := list (string * json).

(** Python's truth value, as tested by [if video_url:] and
    [if password_attempt]. *)
Definition truthy (v : json) : bool :=
  match v with
  | JNull => false
  | JBool b => b
  | JInt z => negb (Z.eqb z 0)
  | JFloat (S754_zero _) => false
  | JFloat _ => true
  | JStr s => negb (String.eqb s "")
  | JArr l => match l with [] => false | _ => true end
  | JObj kvs => match kvs with [] => false | _ => true end
  end.

(** [v == s] for a string literal [s]: only a [str] with the same
    characters compares equal. *)
Definition py_eq_str (v : json) (s : string) : bool :=
  match v with
  | JStr t => String.eqb t s
  | _ => false
  end.

(** [type(v).__name__], which Python puts in an [AttributeError]. *)
Definition type_name (v : json) : string :=
  match v with
  | JNull => "NoneType"
  | JBool _ => "bool"
  | JInt _ => "int"
  | JFloat _ => "float"
  | JStr _ => "str"
  | JArr _ => "list"
  | JObj _ => "dict"
  end.

(** Lookup in a dict (first binding of the key). *)
Fixpoint dict_get (d : dict) (k : string) : option json :=
  match d with
  | [] => None
  | (k', v) :: d' => if String.eqb k' k then Some v else dict_get d' k
  end.

(** [d.get(k, default)] on a dict. *)
Definition dict_get_default (d : dict) (k : string) (default : json) : json :=
  match dict_get d k with
  | Some v => v
  | None => default
  end.

(** Truth value of the module-level [GOOGLE_SCRIPT_URL], which [os.getenv]
    leaves [None] when the variable is not set. *)
Definition configured (url : option string) : bool :=
  match url with
  | None => false
  | Some u => negb (String.eqb u "")
  end.

(** ** Exceptions *)

(** An exception is its class name and [str(e)]. *)
Record exn : Type := Exn { exn_class : string; str : string }.

Definition AttributeError_get (v : json) : exn :=
  Exn "AttributeError"
      ("'" ++ type_name v ++ "' object has no attribute 'get'")%string.

Definition MissingSchema : exn :=
  Exn "MissingSchema" "Invalid URL: No scheme supplied.".

Definition JSONDecodeError : exn :=
  Exn "JSONDecodeError" "Expecting value".

(** What [get_json] raises on a body it cannot parse, with werkzeug's
    default description. *)
Definition BadRequest : exn :=
  Exn "BadRequest"
      "400 Bad Request: The browser (or proxy) sent a request that this server could not understand.".

Definition FileNotFoundError : exn :=
  Exn "FileNotFoundError" "No such file or directory: 'last_video.json'".

Definition PermissionError : exn :=
  Exn "PermissionError" "Permission denied: 'last_video.json'".

Definition BadRequestKeyError : exn :=
  Exn "BadRequestKeyError" "400 Bad Request".

(** ** The world outside the process *)

(** A text that is parsed as JSON: either a well-formed document, standing
    for the value it parses to, or anything else. *)
Inductive content : Type :=
| Doc (j : json)
| Garbage (text : string).

(** The state of [last_video.json]. *)
Inductive file_state : Type :=
| Absent
| Unreadable
| Holds (c : content).

(** What [requests.get] / [requests.post] meet on the network: a reply
    with some status code and body, or an exception (connection error,
    timeout, ...). *)
Inductive http_reply : Type :=
| Reply (status : nat) (body : content)
| NoReply (e : exn).

(** What happens to [open(VIDEO_STORE_FILE, "w")] followed by [json.dump]:
    it succeeds; [open] itself raises and the file is untouched; or the
    file was truncated by [open] and the dump stops after [partial]. *)
Inductive write_outcome : Type :=
| WriteOk
| OpenFails (e : exn)
| DumpFails (partial : string) (e : exn).

(** What [cloudinary.uploader.upload] does: it returns the provider's
    result dict, or raises. *)
Inductive upload_outcome : Type :=
| UploadOk (result : dict)
| UploadFails (e : exn).

(** Everything one handler invocation takes from outside this file: the
    configuration read at import time, the clock, and how each collaborator
    answers.  Every function below calls each collaborator at most once. *)
Record env : Type := Env {
  GOOGLE_SCRIPT_URL : option string;
  india_time : string;
  get_reply : http_reply;
  post_reply : http_reply;
  write_result : write_outcome;
  upload_reply : upload_outcome
}.

(** An uploaded file part ([werkzeug]'s [FileStorage]). *)
Record file_storage : Type := FileStorage {
  filename : string;
  stream : string
}.

(** The parts of [flask.request] the handlers read. *)
Record request : Type := Request {
  forwarded_for : option string;   (* the X-Forwarded-For header *)
  remote_addr : option string;
  body : content;
  files : list (string * file_storage)
}.

(** Calls that leave the process. *)
Inductive call : Type :=
| HttpGet (url : string)
| HttpPost (url : string) (payload : dict)
| CloudinaryUpload (video : file_storage) (resource_type folder : string)
| PathExists (path : string)
| OpenRead (path : string)
| OpenWrite (path : string) (document : json).

(** Lines printed on standard output (the diagnostic channel), one
    constructor per [print] of the source. *)
Inductive diag : Type :=
| SaveFailed (e : exn)            (* "Failed to save last video:" *)
| FetchFailed (e : exn)           (* "Could not fetch latest video from Google Sheet:" *)
| VisitLogFailed (e : exn)        (* "Failed to log page visit:" *)
| LOG (data : json)               (* "LOG:" *)
| SheetLogFailed (e : exn)        (* "Google Sheet log failed:" *)
| LogError (e : exn)              (* "Log Error:" *)
| Uploading (name : string)       (* "Uploading to Cloudinary:" *)
| UploadSuccessful (url : json)   (* "Upload successful:" *)
| UploadLogFailed (e : exn)       (* "Failed to log upload:" *)
| UploadError (e : exn).          (* "Upload Error:" *)

Record world : Type := World {
  cache_file : file_state;
  calls : list call;
  stdout : list diag
}.

Definition set_cache_file (f : file_state) (w : world) : world :=
  World f (calls w) (stdout w).

Definition add_call (c : call) (w : world) : world :=
  World (cache_file w) (calls w ++ [c]) (stdout w).

Definition add_line (d : diag) (w : world) : world :=
  World (cache_file w) (calls w) (stdout w ++ [d]).

(** ** The monad of handler code *)

(** A statement either completes with a value or raises; in both cases
    the effects it had on the world stay (nothing is rolled back when an
    exception is caught). *)
Inductive outcome (A : Type) : Type :=
| Returned (a : A)
| Raised (e : exn).
Arguments Returned {A} a.
Arguments Raised {A} e.

Definition M (A : Type) : Type := world -> outcome A * world.

Definition ret {A} (a : A) : M A := fun w => (Returned a, w).

Definition raise {A} (e : exn) : M A := fun w => (Raised e, w).

Definition bind {A B} (m : M A) (k : A -> M B) : M B :=
  fun w =>
    match m w with
    | (Returned a, w') => k a w'
    | (Raised e, w') => (Raised e, w')
    end.

(** [try: m  except Exception as e: h e] *)
Definition try_except {A} (m : M A) (h : exn -> M A) : M A :=
  fun w =>
    match m w with
    | (Returned a, w') => (Returned a, w')
    | (Raised e, w') => h e w'
    end.

Declare Scope py_scope.
Delimit Scope py_scope with py.
Notation "x <- m ;; k" := (bind m (fun x => k))
  (at level 61, m at next level, right associativity) : py_scope.
Notation "m ;; k" := (bind m (fun _ => k))
  (at level 61, right associativity) : py_scope.
Local Open Scope py_scope.

Definition result_of {A} (r : outcome A * world) : outcome A := fst r.
Definition world_of {A} (r : outcome A * world) : world := snd r.

(** ** Library calls *)

Definition print (d : diag) : M unit :=
  fun w => (Returned tt, add_line d w).

Definition VIDEO_STORE_FILE : string := "last_video.json".

(** [requests.get(url, timeout=10)]: without a usable URL [requests]
    raises before any traffic; otherwise the network decides. *)
Definition requests_get (E : env) (url : option string) : M content :=
  match url with
  | None => raise MissingSchema
  | Some u =>
      if String.eqb u "" then raise MissingSchema
      else fun w =>
        match get_reply E with
        | Reply _ b => (Returned b, add_call (HttpGet u) w)
        | NoReply e => (Raised e, add_call (HttpGet u) w)
        end
  end.

(** [requests.post(url, json=payload, timeout=10)]; the response object is
    dropped by every caller, so only completion is kept. *)
Definition requests_post (E : env) (url : option string) (payload : dict)
  : M unit :=
  match url with
  | None => raise MissingSchema
  | Some u =>
      if String.eqb u "" then raise MissingSchema
      else fun w =>
        match post_reply E with
        | Reply _ _ => (Returned tt, add_call (HttpPost u payload) w)
        | NoReply e => (Raised e, add_call (HttpPost u payload) w)
        end
  end.

(** [response.json()] and [json.load(f)]. *)
Definition parse_json (c : content) (failure : exn) : M json :=
  match c with
  | Doc j => ret j
  | Garbage _ => raise failure
  end.

(** [data.get(key)] and [data.get(key, default)] on whatever [data] is:
    only a dict has the method. *)
Definition py_get (data : json) (key : string) (default : json) : M json :=
  match data with
  | JObj kvs => ret (dict_get_default kvs key default)
  | _ => raise (AttributeError_get data)
  end.

(** [os.path.exists(VIDEO_STORE_FILE)] *)
Definition os_path_exists : M bool :=
  fun w =>
    (Returned match cache_file w with Absent => false | _ => true end,
     add_call (PathExists VIDEO_STORE_FILE) w).

(** [with open(VIDEO_STORE_FILE, "r") as f: json.load(f)] *)
Definition open_r_json_load : M json :=
  fun w =>
    let w' := add_call (OpenRead VIDEO_STORE_FILE) w in
    match cache_file w with
    | Absent => (Raised FileNotFoundError, w')
    | Unreadable => (Raised PermissionError, w')
    | Holds c => parse_json c JSONDecodeError w'
    end.

(** [with open(VIDEO_STORE_FILE, "w") as f: json.dump(document, f)] *)
Definition open_w_json_dump (E : env) (document : json) : M unit :=
  fun w =>
    let w' := add_call (OpenWrite VIDEO_STORE_FILE document) w in
    match write_result E with
    | WriteOk => (Returned tt, set_cache_file (Holds (Doc document)) w')
    | OpenFails e => (Raised e, w')
    | DumpFails partial e => (Raised e, set_cache_file (Holds (Garbage partial)) w')
    end.

(** [cloudinary.uploader.upload(video, resource_type=..., folder=...)] *)
Definition cloudinary_upload (E : env) (video : file_storage)
    (resource_type folder : string) : M json :=
  fun w =>
    let w' := add_call (CloudinaryUpload video resource_type folder) w in
    match upload_reply E with
    | UploadOk result => (Returned (JObj result), w')
    | UploadFails e => (Raised e, w')
    end.

(** [request.get_json(force=True)] *)
Definition get_json (req : request) : M json :=
  parse_json (body req) BadRequest.

(** ["video" in request.files] and [request.files["video"]] *)
Fixpoint files_get (fs : list (string * file_storage)) (k : string)
  : option file_storage :=
  match fs with
  | [] => None
  | (k', f) :: fs' => if String.eqb k' k then Some f else files_get fs' k
  end.

Definition files_contains (fs : list (string * file_storage)) (k : string) : bool :=
  match files_get fs k with Some _ => true | None => false end.

Definition files_getitem (fs : list (string * file_storage)) (k : string)
  : M file_storage :=
  match files_get fs k with
  | Some f => ret f
  | None => raise BadRequestKeyError
  end.

(** [request.headers.get("X-Forwarded-For", request.remote_addr)] *)
Definition ip_address_of (req : request) : json :=
  match forwarded_for req with
  | Some a => JStr a
  | None => match remote_addr req with Some a => JStr a | None => JNull end
  end.

(** Responses: [jsonify(d)] and [render_template(name, video_url=...)]. *)
Inductive response : Type :=
| Jsonify (d : dict)
| RenderTemplate (name : string) (video_url : json).

(** ** Helpers (app.py, lines 31-60) *)

Definition save_last_video (E : env) (video_url : json) : M unit :=
  try_except
    (open_w_json_dump E (JObj [("video_url", video_url)]))
    (fun e => print (SaveFailed e)).

(** The [try] block of [get_last_video] either returns from the function
    ([Some v]) or is left for the fallback ([None]). *)
Definition get_last_video (E : env) : M json :=
  early <- try_except
             (response <- requests_get E (GOOGLE_SCRIPT_URL E) ;;
              data <- parse_json response JSONDecodeError ;;
              video_url <- py_get data "video_url" JNull ;;
              if truthy video_url then
                save_last_video E video_url ;;
                ret (Some video_url)
              else ret None)
             (fun e => print (FetchFailed e) ;; ret None) ;;
  match early with
  | Some video_url => ret video_url
  | None =>
      (* fallback to local file if Google fails *)
      present <- os_path_exists ;;
      if present then
        read <- try_except
                  (data <- open_r_json_load ;;
                   v <- py_get data "video_url" JNull ;;
                   ret (Some v))
                  (fun _ => ret None) ;;
        match read with
        | Some v => ret v
        | None => ret JNull
        end
      else ret JNull
  end.

(** ** Routes (app.py, lines 66-180) *)

Section Routes.

(** [werkzeug.utils.secure_filename]; its result only reaches the
    diagnostic line and the logged event. *)
Variable secure_filename : string -> string.

Variable E : env.
Variable req : request.

(** The guarded, unprotected POST of [index]. *)
Definition post_if_configured (payload : dict) : M unit :=
  if configured (GOOGLE_SCRIPT_URL E)
  then requests_post E (GOOGLE_SCRIPT_URL E) payload
  else ret tt.

(** [if GOOGLE_SCRIPT_URL: try: requests.post(...) except Exception as e:
    print(line, e)], as written in [log_action] and [upload_story]. *)
Definition post_guarded (payload : dict) (line : exn -> diag) : M unit :=
  if configured (GOOGLE_SCRIPT_URL E)
  then try_except
         (requests_post E (GOOGLE_SCRIPT_URL E) payload)
         (fun e => print (line e))
  else ret tt.

Definition index : M response :=
  video_url <- get_last_video E ;;
  try_except
    (let ip_address := ip_address_of req in
     let payload :=
       [("timestamp", JStr (india_time E));
        ("event", JStr "page_visit");
        ("ip_address", ip_address);
        ("password_attempt", JStr "");
        ("result", JStr "visited")] in
     post_if_configured payload)
    (fun e => print (VisitLogFailed e)) ;;
  ret (RenderTemplate "index.html" video_url).

Definition log_action : M response :=
  try_except
    (data <- get_json req ;;
     print (LOG data) ;;
     password_attempt <- py_get data "password" (JStr "") ;;
     event <- py_get data "action"
                (JStr (if truthy password_attempt
                       then "password_attempt" else "unknown")) ;;
     let result :=
       if py_eq_str password_attempt "23E51A05C1" then "success"
       else if truthy password_attempt then "failed"
       else "clicked" in
     let ip_address := ip_address_of req in
     let payload :=
       [("timestamp", JStr (india_time E));
        ("event", event);
        ("ip_address", ip_address);
        ("password_attempt", password_attempt);
        ("result", JStr result)] in
     post_guarded payload SheetLogFailed ;;
     ret (Jsonify [("status", JStr "ok"); ("result", JStr result)]))
    (fun e =>
       print (LogError e) ;;
       ret (Jsonify [("status", JStr "error"); ("error", JStr (str e))])).

Definition upload_story : M response :=
  try_except
    (if negb (files_contains (files req) "video") then
       ret (Jsonify [("status", JStr "error"); ("error", JStr "No video part")])
     else
       video <- files_getitem (files req) "video" ;;
       if String.eqb (filename video) "" then
         ret (Jsonify [("status", JStr "error");
                       ("error", JStr "No selected file")])
       else
         let filename := secure_filename (filename video) in
         print (Uploading filename) ;;
         upload_result <- cloudinary_upload E video "video" "stories" ;;
         video_url <- py_get upload_result "secure_url" JNull ;;
         print (UploadSuccessful video_url) ;;
         save_last_video E video_url ;;
         (* Log upload to Google Sheet *)
         let ip_address := ip_address_of req in
         let log_data :=
           [("timestamp", JStr (india_time E));
            ("event", JStr "video_uploaded");
            ("ip_address", ip_address);
            ("password_attempt", JStr filename);
            ("video_url", video_url);
            ("result", JStr "uploaded")] in
         post_guarded log_data UploadLogFailed ;;
         ret (Jsonify [("status", JStr "ok"); ("video_url", video_url)]))
    (fun e =>
       print (UploadError e) ;;
       ret (Jsonify [("status", JStr "error"); ("error", JStr (str e))])).

End Routes.

(** ** How the remote fetch can go *)

(** The remote fetch succeeds with [v]: the GET is answered (whatever the
    status code), the body is a JSON object and its [video_url] is truthy. *)
Inductive remote_success (E : env) (u : string) (v : json) : Prop :=
| remote_ok (st : nat) (kvs : dict) :
    GOOGLE_SCRIPT_URL E = Some u -> u <> "" ->
    get_reply E = Reply st (Doc (JObj kvs)) ->
    dict_get kvs "video_url" = Some v ->
    truthy v = true ->
    remote_success E u v.

(** The ways the remote fetch yields nothing. *)
Inductive remote_failure (E : env) : Prop :=
| no_url :
    configured (GOOGLE_SCRIPT_URL E) = false -> remote_failure E
| network_error (e : exn) :
    get_reply E = NoReply e -> remote_failure E
| non_json_body (st : nat) (text : string) :
    get_reply E = Reply st (Garbage text) -> remote_failure E
| not_an_object (st : nat) (j : json) :
    get_reply E = Reply st (Doc j) ->
    (forall kvs, j <> JObj kvs) -> remote_failure E
| missing_field (st : nat) (kvs : dict) :
    get_reply E = Reply st (Doc (JObj kvs)) ->
    dict_get kvs "video_url" = None -> remote_failure E
| empty_field (st : nat) (kvs : dict) (v : json) :
    get_reply E = Reply st (Doc (JObj kvs)) ->
    dict_get kvs "video_url" = Some v ->
    truthy v = false -> remote_failure E.

(** The same environment with another answer of the logging sink, and
    with another sink configuration. *)
Definition with_post (E : env) (p : http_reply) : env :=
  Env (GOOGLE_SCRIPT_URL E) (india_time E) (get_reply E) p
      (write_result E) (upload_reply E).

Definition with_sink (E : env) (url : option string) (p : http_reply) : env :=
  Env url (india_time E) (get_reply E) p (write_result E) (upload_reply E).

(** Concrete environments, worlds and requests used by the examples. *)
Definition script_url : string := "https://script.google.com/macros/s/X/exec".

Definition remote_says (j : json) (wr : write_outcome) : env :=
  Env (Some script_url) "2025-01-01 10:00:00"
      (Reply 200 (Doc j)) (Reply 200 (Garbage "OK")) wr
      (UploadFails (Exn "Error" "unused")).

Definition remote_down (wr : write_outcome) (up : upload_outcome) : env :=
  Env (Some script_url) "2025-01-01 10:00:00"
      (NoReply (Exn "ConnectTimeout" "timed out"))
      (NoReply (Exn "ConnectTimeout" "timed out")) wr up.

Definition cached (v : json) : world :=
  World (Holds (Doc (JObj [("video_url", v)]))) [] [].

Definition empty_world : world := World Absent [] [].

Definition post_json (j : json) : request :=
  Request None (Some "203.0.113.7") (Doc j) [].

(** [secure_filename] on a name that needs no cleaning. *)
Definition secure_filename_safe (name : string) : string := name.

Definition post_file (name : string) : request :=
  Request None (Some "203.0.113.7") (Garbage "") [("video", FileStorage name "...")].

(** ** The console and the payload check *)

(** The routes above take [print] to succeed and [requests.post] to accept
    every payload.  [Strict] is the same code, line for line, on a console
    that can refuse a line ([print] then raises, for instance
    [UnicodeEncodeError] on the warning sign of a diagnostic line when
    standard output is not UTF-8), and with the check [requests] makes with
    [json=payload]: a payload holding [inf] or [nan] is refused before any
    traffic. *)

(** [json.dumps(v, allow_nan=False)] accepts [v]. *)
Fixpoint json_finite (v : json) : bool :=
  match v with
  | JFloat (S754_infinity _) | JFloat S754_nan => false
  | JArr l =>
      (fix all (l : list json) : bool :=
         match l with
         | [] => true
         | x :: l' => json_finite x && all l'
         end) l
  | JObj kvs =>
      (fix all (l : list (string * json)) : bool :=
         match l with
         | [] => true
         | (_, x) :: l' => json_finite x && all l'
         end) kvs
  | _ => true
  end.

Definition UnicodeEncodeError : exn :=
  Exn "UnicodeEncodeError"
      "'ascii' codec can't encode character '\u26a0' in position 0: ordinal not in range(128)".

Definition InvalidJSONError : exn :=
  Exn "InvalidJSONError" "Out of range float values are not JSON compliant".

(** A console that takes every line, and one that cannot encode the
    diagnostic lines starting with a warning sign or a check mark. *)
Definition utf8_console (d : diag) : option exn := None.

Definition ascii_console (d : diag) : option exn :=
  match d with
  | SaveFailed _ | FetchFailed _ | VisitLogFailed _ | SheetLogFailed _
  | UploadSuccessful _ | UploadLogFailed _ => Some UnicodeEncodeError
  | LOG _ | LogError _ | Uploading _ | UploadError _ => None
  end.

Module Strict.

Section Code.

(** What [print] does with a line: [None] when it is written, [Some e]
    when [print] raises [e]. *)
Variable console : diag -> option exn.
Variable secure_filename : string -> string.
Variable E : env.
Variable req : request.

Definition print (d : diag) : M unit :=
  fun w =>
    match console d with
    | None => (Returned tt, add_line d w)
    | Some e => (Raised e, w)
    end.

Definition requests_post (url : option string) (payload : dict) : M unit :=
  match url with
  | None => raise MissingSchema
  | Some u =>
      if String.eqb u "" then raise MissingSchema
      else if negb (json_finite (JObj payload)) then raise InvalidJSONError
      else fun w =>
        match post_reply E with
        | Reply _ _ => (Returned tt, add_call (HttpPost u payload) w)
        | NoReply e => (Raised e, add_call (HttpPost u payload) w)
        end
  end.

Definition save_last_video (video_url : json) : M unit :=
  try_except
    (open_w_json_dump E (JObj [("video_url", video_url)]))
    (fun e => print (SaveFailed e)).

Definition get_last_video : M json :=
  early <- try_except
             (response <- requests_get E (GOOGLE_SCRIPT_URL E) ;;
              data <- parse_json response JSONDecodeError ;;
              video_url <- py_get data "video_url" JNull ;;
              if truthy video_url then
                save_last_video video_url ;;
                ret (Some video_url)
              else ret None)
             (fun e => print (FetchFailed e) ;; ret None) ;;
  match early with
  | Some video_url => ret video_url
  | None =>
      present <- os_path_exists ;;
      if present then
        read <- try_except
                  (data <- open_r_json_load ;;
                   v <- py_get data "video_url" JNull ;;
                   ret (Some v))
                  (fun _ => ret None) ;;
        match read with
        | Some v => ret v
        | None => ret JNull
        end
      else ret JNull
  end.

Definition post_if_configured (payload : dict) : M unit :=
  if configured (GOOGLE_SCRIPT_URL E)
  then requests_post (GOOGLE_SCRIPT_URL E) payload
  else ret tt.

Definition post_guarded (payload : dict) (line : exn -> diag) : M unit :=
  if configured (GOOGLE_SCRIPT_URL E)
  then try_except
         (requests_post (GOOGLE_SCRIPT_URL E) payload)
         (fun e => print (line e))
  else ret tt.

Definition index : M response :=
  video_url <- get_last_video ;;
  try_except
    (let ip_address := ip_address_of req in
     let payload :=
       [("timestamp", JStr (india_time E));
        ("event", JStr "page_visit");
        ("ip_address", ip_address);
        ("password_attempt", JStr "");
        ("result", JStr "visited")] in
     post_if_configured payload)
    (fun e => print (VisitLogFailed e)) ;;
  ret (RenderTemplate "index.html" video_url).

Definition log_action : M response :=
  try_except
    (data <- get_json req ;;
     print (LOG data) ;;
     password_attempt <- py_get data "password" (JStr "") ;;
     event <- py_get data "action"
                (JStr (if truthy password_attempt
                       then "password_attempt" else "unknown")) ;;
     let result :=
       if py_eq_str password_attempt "23E51A05C1" then "success"
       else if truthy password_attempt then "failed"
       else "clicked" in
     let ip_address := ip_address_of req in
     let payload :=
       [("timestamp", JStr (india_time E));
        ("event", event);
        ("ip_address", ip_address);
        ("password_attempt", password_attempt);
        ("result", JStr result)] in
     post_guarded payload SheetLogFailed ;;
     ret (Jsonify [("status", JStr "ok"); ("result", JStr result)]))
    (fun e =>
       print (LogError e) ;;
       ret (Jsonify [("status", JStr "error"); ("error", JStr (str e))])).

Definition upload_story : M response :=
  try_except
    (if negb (files_contains (files req) "video") then
       ret (Jsonify [("status", JStr "error"); ("error", JStr "No video part")])
     else
       video <- files_getitem (files req) "video" ;;
       if String.eqb (filename video) "" then
         ret (Jsonify [("status", JStr "error");
                       ("error", JStr "No selected file")])
       else
         let filename := secure_filename (filename video) in
         print (Uploading filename) ;;
         upload_result <- cloudinary_upload E video "video" "stories" ;;
         video_url <- py_get upload_result "secure_url" JNull ;;
         print (UploadSuccessful video_url) ;;
         save_last_video video_url ;;
         let ip_address := ip_address_of req in
         let log_data :=
           [("timestamp", JStr (india_time E));
            ("event", JStr "video_uploaded");
            ("ip_address", ip_address);
            ("password_attempt", JStr filename);
            ("video_url", video_url);
            ("result", JStr "uploaded")] in
         post_guarded log_data UploadLogFailed ;;
         ret (Jsonify [("status", JStr "ok"); ("video_url", video_url)]))
    (fun e =>
       print (UploadError e) ;;
       ret (Jsonify [("status", JStr "error"); ("error", JStr (str e))])).

End Code.

End Strict.

(** * Properties *)

(** The three shapes of the configured URL that [requests.get] tells
    apart, and the shapes of the cache file that the fallback tells apart. *)
Ltac case_url E :=
  destruct (GOOGLE_SCRIPT_URL E) as [?u|]; [destruct (String.eqb _ "")|].

Ltac read_cache f :=
  destruct f as [| |[[]|]]; simpl; eexists; split; reflexivity.

(** ** Dicts *)

Lemma dict_get_Some_In (d : dict) (k : string) (v : json) :
  dict_get d k = Some v -> In (k, v) d.
Proof.
  induction d as [|[k' v'] d IH]; simpl; [discriminate|].
  destruct (String.eqb_spec k' k) as [->|Hne]; intros H.
  - left. congruence.
  - right. auto.
Qed.


(** A non-empty string, such as a URL, is truthy. *)
Lemma nonempty_str_truthy (s : string) : s <> "" -> truthy (JStr s) = true.
Proof.
  intros H. simpl. destruct (String.eqb_spec s ""); [contradiction | reflexivity].
Qed.

Lemma configured_url (u : string) : u <> "" -> configured (Some u) = true.
Proof.
  intros H. simpl. destruct (String.eqb_spec u ""); [contradiction | reflexivity].
Qed.

(** ** save_last_video *)

(** What one call of [save_last_video] does, outcome by outcome. *)
Lemma save_last_video_run (E : env) (v : json) (w : world) :
  exists w',
    save_last_video E v w = (Returned tt, w') /\
    calls w' = calls w ++ [OpenWrite VIDEO_STORE_FILE (JObj [("video_url", v)])] /\
    match write_result E with
    | WriteOk =>
        cache_file w' = Holds (Doc (JObj [("video_url", v)])) /\
        stdout w' = stdout w
    | OpenFails e =>
        cache_file w' = cache_file w /\ stdout w' = stdout w ++ [SaveFailed e]
    | DumpFails partial e =>
        cache_file w' = Holds (Garbage partial) /\
        stdout w' = stdout w ++ [SaveFailed e]
    end.
Proof.
  unfold save_last_video, try_except, open_w_json_dump.
  destruct (write_result E); eexists; (split; [reflexivity|]); simpl; auto.
Qed.

(** ** get_last_video *)

Lemma get_last_video_success (E : env) (u : string) (v : json) (w : world) :
  remote_success E u v ->
  exists w',
    get_last_video E w = (Returned v, w') /\
    calls w' = calls w ++ [HttpGet u; OpenWrite VIDEO_STORE_FILE (JObj [("video_url", v)])] /\
    match write_result E with
    | WriteOk => cache_file w' = Holds (Doc (JObj [("video_url", v)]))
    | OpenFails _ => cache_file w' = cache_file w
    | DumpFails partial _ => cache_file w' = Holds (Garbage partial)
    end.
Proof.
  intros [st kvs Hurl Hu Hget Hfield Htrue].
  destruct (save_last_video_run E v (add_call (HttpGet u) w))
    as (w' & Hrun & Hcalls & Hw).
  exists w'.
  unfold get_last_video, bind, try_except, requests_get.
  rewrite Hurl. destruct (String.eqb_spec u ""); [contradiction|].
  rewrite Hget. simpl. unfold dict_get_default. rewrite Hfield, Htrue.
  rewrite Hrun. simpl. split; [reflexivity|]. split.
  - rewrite Hcalls. simpl. rewrite <- app_assoc. reflexivity.
  - destruct (write_result E); simpl in *; tauto.
Qed.

Lemma get_last_video_fallback (E : env) (w : world) :
  remote_failure E ->
  exists w',
    get_last_video E w =
      (Returned match cache_file w with
                | Holds (Doc (JObj kvs)) => dict_get_default kvs "video_url" JNull
                | _ => JNull
                end, w') /\
    cache_file w' = cache_file w.
Proof.
  intros Hfail. unfold get_last_video, bind, try_except, requests_get.
  destruct w as [f cs out].
  destruct Hfail as [Hcfg | e Hget | st text Hget | st j Hget Hj
                    | st kvs Hget Hfield | st kvs v Hget Hfield Hfalse];
    try unfold configured in Hcfg;
    case_url E; try discriminate Hcfg; rewrite ?Hget; simpl;
    try (destruct j; try (exfalso; eapply Hj; reflexivity); simpl);
    unfold dict_get_default; rewrite ?Hfield, ?Hfalse; simpl;
    read_cache f.
Qed.

(** Every environment falls under exactly one of the two descriptions. *)
Lemma remote_success_or_failure (E : env) :
  remote_failure E \/ exists u v, remote_success E u v.
Proof.
  destruct (configured (GOOGLE_SCRIPT_URL E)) eqn:Hcfg; [|left; now apply no_url].
  destruct (GOOGLE_SCRIPT_URL E) as [u|] eqn:Hurl; [|discriminate].
  assert (Hu : u <> "").
  { intros ->. discriminate. }
  destruct (get_reply E) as [st [j|text]|e] eqn:Hget.
  - destruct j as [| | | | |l|kvs];
      try (left; eapply not_an_object; [eassumption | discriminate]).
    destruct (dict_get kvs "video_url") as [v|] eqn:Hfield.
    + destruct (truthy v) eqn:Hv.
      * right. exists u, v. econstructor; eassumption.
      * left. eapply empty_field; eassumption.
    + left. eapply missing_field; eassumption.
  - left. eapply non_json_body; eassumption.
  - left. eapply network_error; eassumption.
Qed.

Lemma remote_success_not_failure (E : env) (u : string) (v : json) :
  remote_success E u v -> ~ remote_failure E.
Proof.
  intros [st kvs Hurl Hu Hget Hfield Hv] Hfail.
  inversion Hfail as [Hcfg | e H | st' text H | st' j H Hj
                     | st' kvs' H Hnone | st' kvs' v' H Hsome Hfalse];
    try congruence.
  rewrite Hurl, (configured_url u Hu) in Hcfg. discriminate.
Qed.





Example resolve_without_cache :
  get_last_video (remote_says (JObj [("video_url", JStr "")]) WriteOk) empty_world
  = (Returned JNull, World Absent [HttpGet script_url; PathExists VIDEO_STORE_FILE] []).
Proof. reflexivity. Qed.

Example resolve_unreadable_cache :
  result_of (get_last_video (remote_says (JObj []) WriteOk) (World Unreadable [] []))
  = Returned JNull.
Proof. reflexivity. Qed.

Example resolve_corrupt_cache :
  result_of (get_last_video (remote_says (JStr "maintenance") WriteOk)
                            (World (Holds (Garbage "{")) [] []))
  = Returned JNull.
Proof. reflexivity. Qed.





(** ** The logging side channel *)

(** The protected POST of [log_action] and [upload_story] always completes,
    whatever the sink does, and only adds calls. *)
Lemma post_guarded_run (E : env) (payload : dict) (line : exn -> diag) (w : world) :
  exists w',
    post_guarded E payload line w = (Returned tt, w') /\
    cache_file w' = cache_file w /\
    exists extra, calls w' = calls w ++ extra.
Proof.
  unfold post_guarded, configured, try_except, requests_post.
  case_url E; simpl.
  - exists w. repeat split. exists []. now rewrite app_nil_r.
  - destruct (post_reply E); eexists; (split; [reflexivity|]); simpl;
      (split; [reflexivity | eexists; reflexivity]).
  - exists w. repeat split. exists []. now rewrite app_nil_r.
Qed.


(** ** log_action *)


Lemma log_action_object (E : env) (req : request) (w : world) (kvs : dict) :
  body req = Doc (JObj kvs) ->
  exists w',
    log_action E req w =
      (Returned
         (Jsonify
            [("status", JStr "ok");
             ("result",
              JStr (if py_eq_str (dict_get_default kvs "password" (JStr "")) "23E51A05C1"
                    then "success"
                    else if truthy (dict_get_default kvs "password" (JStr ""))
                         then "failed" else "clicked"))]), w').
Proof.
  intros Hbody. unfold log_action, try_except, bind, get_json. rewrite Hbody. simpl.
  match goal with
  | |- context [post_guarded E ?p ?l ?w0] =>
      destruct (post_guarded_run E p l w0) as (w' & Hpost & _)
  end.
  rewrite Hpost. simpl. eauto.
Qed.

Lemma log_action_not_object (E : env) (req : request) (w : world) (j : json) :
  body req = Doc j ->
  (forall kvs, j <> JObj kvs) ->
  log_action E req w =
    (Returned (Jsonify [("status", JStr "error");
                        ("error", JStr (str (AttributeError_get j)))]),
     add_line (LogError (AttributeError_get j)) (add_line (LOG j) w)).
Proof.
  intros Hbody Hj. unfold log_action, try_except, bind, get_json. rewrite Hbody.
  destruct j; try reflexivity. exfalso. now apply (Hj kvs).
Qed.

Lemma log_action_malformed (E : env) (req : request) (w : world) (text : string) :
  body req = Garbage text ->
  log_action E req w =
    (Returned (Jsonify [("status", JStr "error"); ("error", JStr (str BadRequest))]),
     add_line (LogError BadRequest) w).
Proof.
  intros Hbody. unfold log_action, try_except, bind, get_json. now rewrite Hbody.
Qed.




(** C10: a body that is well-formed JSON but not an object makes
    [data.get] raise; the handler answers [{status: "error", error: <the
    exception's text>}] and has made no call at all, so nothing reached the
    logging sink. *)
Theorem C10_log_action_non_object_body
    (E : env) (req : request) (w : world) (j : json) :
  body req = Doc j ->
  (forall kvs, j <> JObj kvs) ->
  result_of (log_action E req w) =
    Returned (Jsonify [("status", JStr "error");
                       ("error", JStr (str (AttributeError_get j)))]) /\
  calls (world_of (log_action E req w)) = calls w.
Proof.
  intros Hbody Hj. rewrite (log_action_not_object E req w j Hbody Hj).
  split; reflexivity.
Qed.

Lemma C10_witness :
  result_of (log_action (remote_says JNull WriteOk)
                        (post_json (JArr [JStr "23E51A05C1"])) empty_world)
    = Returned (Jsonify [("status", JStr "error");
                         ("error", JStr "'list' object has no attribute 'get'")]) /\
  calls (world_of (log_action (remote_says JNull WriteOk)
                              (post_json (JArr [JStr "23E51A05C1"])) empty_world))
    = [].
Proof.
  apply (C10_log_action_non_object_body (remote_says JNull WriteOk)
           (post_json (JArr [JStr "23E51A05C1"])) empty_world
           (JArr [JStr "23E51A05C1"])).
  - reflexivity.
  - discriminate.
Defined.

(** ** upload_story *)

Section Upload.

Variable secure_filename : string -> string.


Lemma upload_story_provider_fails (E : env) (req : request) (w : world)
    (video : file_storage) (e : exn) :
  files_get (files req) "video" = Some video ->
  filename video <> "" ->
  upload_reply E = UploadFails e ->
  exists w',
    upload_story secure_filename E req w =
      (Returned (Jsonify [("status", JStr "error"); ("error", JStr (str e))]), w') /\
    cache_file w' = cache_file w.
Proof.
  intros Hfile Hname Hup.
  unfold upload_story, try_except, bind, files_contains, files_getitem,
    cloudinary_upload.
  rewrite Hfile. simpl.
  destruct (String.eqb_spec (filename video) ""); [contradiction|].
  rewrite Hup. simpl. eexists. split; reflexivity.
Qed.

Lemma upload_story_no_part (E : env) (req : request) (w : world) :
  files_get (files req) "video" = None ->
  upload_story secure_filename E req w =
    (Returned (Jsonify [("status", JStr "error"); ("error", JStr "No video part")]),
     w).
Proof.
  intros Hnone.
  unfold upload_story, try_except, bind, files_contains.
  rewrite Hnone. reflexivity.
Qed.

Lemma upload_story_no_name (E : env) (req : request) (w : world)
    (video : file_storage) :
  files_get (files req) "video" = Some video ->
  filename video = "" ->
  upload_story secure_filename E req w =
    (Returned (Jsonify [("status", JStr "error"); ("error", JStr "No selected file")]),
     w).
Proof.
  intros Hfile Hname.
  unfold upload_story, try_except, bind, files_contains, files_getitem.
  rewrite Hfile. simpl. rewrite Hname. reflexivity.
Qed.

(** C4: without a "video" part the handler answers exactly
    [{status: "error", error: "No video part"}]; with a "video" part whose
    filename is empty it answers exactly [{status: "error", error: "No
    selected file"}]; in both cases the world is left as it was, so no
    upload (and no other call) was made. *)
Theorem C4_upload_validation (E : env) (req : request) (w : world) :
  (files_get (files req) "video" = None ->
   upload_story secure_filename E req w =
     (Returned (Jsonify [("status", JStr "error"); ("error", JStr "No video part")]),
      w)) /\
  (forall video,
     files_get (files req) "video" = Some video ->
     filename video = "" ->
     upload_story secure_filename E req w =
       (Returned (Jsonify [("status", JStr "error");
                           ("error", JStr "No selected file")]),
        w)).
Proof.
  split.
  - apply upload_story_no_part.
  - intros video. apply upload_story_no_name.
Qed.



End Upload.

Lemma C4_witness :
  upload_story secure_filename_safe (remote_says JNull WriteOk)
               (post_json JNull) (cached (JStr "https://cdn/old.mp4"))
    = (Returned (Jsonify [("status", JStr "error"); ("error", JStr "No video part")]),
       cached (JStr "https://cdn/old.mp4")) /\
  upload_story secure_filename_safe (remote_says JNull WriteOk)
               (post_file "") (cached (JStr "https://cdn/old.mp4"))
    = (Returned (Jsonify [("status", JStr "error"); ("error", JStr "No selected file")]),
       cached (JStr "https://cdn/old.mp4")).
Proof.
  split.
  - exact (proj1 (C4_upload_validation secure_filename_safe _ (post_json JNull) _)
             eq_refl).
  - exact (proj2 (C4_upload_validation secure_filename_safe _ (post_file "") _)
             (FileStorage "" "...") eq_refl eq_refl).
Defined.





(** ** The three handlers and the logging sink *)


(** * Further properties of the helpers and the routes *)

(** ** The cache across calls *)



(** X3: when [open] for writing raises, [save_last_video] changes nothing
    that the fallback reads: a later [get_last_video] that finds the remote
    failing returns what it would have returned without the save. *)
Theorem X3_failed_open_keeps_cached_value
    (E E' : env) (e : exn) (v : json) (w : world) :
  write_result E = OpenFails e ->
  remote_failure E' ->
  result_of (get_last_video E' (world_of (save_last_video E v w))) =
  result_of (get_last_video E' w).
Proof.
  intros Hwr Hfail.
  destruct (save_last_video_run E v w) as (w1 & Hsave & _ & Hw).
  rewrite Hwr in Hw. destruct Hw as [Hcache _].
  destruct (get_last_video_fallback E' (world_of (save_last_video E v w)) Hfail)
    as (w2 & Hget2 & _).
  destruct (get_last_video_fallback E' w Hfail) as (w3 & Hget3 & _).
  rewrite Hget2, Hget3, Hsave. simpl. rewrite Hcache. reflexivity.
Qed.

Lemma X3_witness :
  result_of (get_last_video (remote_down WriteOk (UploadFails PermissionError))
               (world_of (save_last_video
                            (remote_down (OpenFails PermissionError)
                                         (UploadFails PermissionError))
                            (JStr "https://cdn/new.mp4")
                            (cached (JStr "https://cdn/old.mp4")))))
  = Returned (JStr "https://cdn/old.mp4").
Proof.
  apply (X3_failed_open_keeps_cached_value
           (remote_down (OpenFails PermissionError) (UploadFails PermissionError))
           (remote_down WriteOk (UploadFails PermissionError))
           PermissionError (JStr "https://cdn/new.mp4")
           (cached (JStr "https://cdn/old.mp4"))).
  - reflexivity.
  - eapply network_error. reflexivity.
Defined.





(** ** index *)





(** ** log_action *)

(** The run of [log_action] on a JSON object when a sink is configured. *)
Lemma log_action_object_posts (E : env) (req : request) (w : world)
    (u : string) (kvs : dict) :
  GOOGLE_SCRIPT_URL E = Some u ->
  u <> "" ->
  body req = Doc (JObj kvs) ->
  calls (world_of (log_action E req w)) =
    calls w ++
    [HttpPost u
       [("timestamp", JStr (india_time E));
        ("event",
         dict_get_default kvs "action"
           (JStr (if truthy (dict_get_default kvs "password" (JStr ""))
                  then "password_attempt" else "unknown")));
        ("ip_address", ip_address_of req);
        ("password_attempt", dict_get_default kvs "password" (JStr ""));
        ("result",
         JStr (if py_eq_str (dict_get_default kvs "password" (JStr "")) "23E51A05C1"
               then "success"
               else if truthy (dict_get_default kvs "password" (JStr ""))
                    then "failed" else "clicked"))]].
Proof.
  intros Hurl Hu Hbody.
  unfold log_action, post_guarded, try_except, bind, get_json, requests_post.
  rewrite Hbody, Hurl. simpl.
  destruct (String.eqb_spec u ""); [contradiction|]. simpl.
  destruct (post_reply E); reflexivity.
Qed.

Lemma log_action_object_keeps_cache (E : env) (req : request) (w : world)
    (kvs : dict) :
  body req = Doc (JObj kvs) ->
  cache_file (world_of (log_action E req w)) = cache_file w.
Proof.
  intros Hbody. unfold log_action, try_except, bind, get_json. rewrite Hbody. simpl.
  match goal with
  | |- context [post_guarded E ?p ?l ?w0] =>
      destruct (post_guarded_run E p l w0) as (w' & Hpost & Hsame & _)
  end.
  rewrite Hpost. simpl. exact Hsame.
Qed.

(** X11: when no sink is configured, [log_action] makes no outside call,
    whatever the body. *)
Theorem X11_log_action_without_sink_is_silent (E : env) (req : request) (w : world) :
  configured (GOOGLE_SCRIPT_URL E) = false ->
  calls (world_of (log_action E req w)) = calls w.
Proof.
  intros Hcfg.
  unfold log_action, post_guarded, try_except, bind, get_json.
  rewrite Hcfg.
  destruct (body req) as [[]|]; reflexivity.
Qed.

Lemma X11_witness :
  calls (world_of (log_action
                     (Env (Some "") "2025-01-01 10:00:00" (NoReply MissingSchema)
                          (Reply 200 (Garbage "OK")) WriteOk (UploadFails PermissionError))
                     (post_json (JObj [("password", JStr "23E51A05C1")]))
                     empty_world))
  = [].
Proof.
  exact (X11_log_action_without_sink_is_silent
           (Env (Some "") "2025-01-01 10:00:00" (NoReply MissingSchema)
                (Reply 200 (Garbage "OK")) WriteOk (UploadFails PermissionError))
           (post_json (JObj [("password", JStr "23E51A05C1")]))
           empty_world eq_refl).
Defined.

(** ** upload_story *)

Section UploadCalls.

Variable secure_filename : string -> string.

(** X13: when Cloudinary raises, the handler answers
    [{status: "error", error: str(e)}]; the upload is the only outside call
    made, so nothing is written to the cache file, which keeps its content,
    and no event is sent to the sink. *)
Theorem X13_upload_provider_failure (E : env) (req : request) (w : world)
    (video : file_storage) (e : exn) :
  files_get (files req) "video" = Some video ->
  filename video <> "" ->
  upload_reply E = UploadFails e ->
  result_of (upload_story secure_filename E req w) =
    Returned (Jsonify [("status", JStr "error"); ("error", JStr (str e))]) /\
  calls (world_of (upload_story secure_filename E req w)) =
    calls w ++ [CloudinaryUpload video "video" "stories"] /\
  cache_file (world_of (upload_story secure_filename E req w)) = cache_file w.
Proof.
  intros Hfile Hname Hup.
  unfold upload_story, try_except, bind, files_contains, files_getitem,
    cloudinary_upload.
  rewrite Hfile. simpl.
  destruct (String.eqb_spec (filename video) ""); [contradiction|].
  rewrite Hup. simpl. repeat split.
Qed.



End UploadCalls.

Lemma X13_witness :
  result_of (upload_story secure_filename_safe
               (remote_down WriteOk (UploadFails (Exn "Error" "Invalid cloud_name")))
               (post_file "a.mp4") (cached (JStr "https://cdn/old.mp4")))
    = Returned (Jsonify [("status", JStr "error");
                         ("error", JStr "Invalid cloud_name")]) /\
  calls (world_of (upload_story secure_filename_safe
               (remote_down WriteOk (UploadFails (Exn "Error" "Invalid cloud_name")))
               (post_file "a.mp4") (cached (JStr "https://cdn/old.mp4"))))
    = [CloudinaryUpload (FileStorage "a.mp4" "...") "video" "stories"] /\
  cache_file (world_of (upload_story secure_filename_safe
               (remote_down WriteOk (UploadFails (Exn "Error" "Invalid cloud_name")))
               (post_file "a.mp4") (cached (JStr "https://cdn/old.mp4"))))
    = Holds (Doc (JObj [("video_url", JStr "https://cdn/old.mp4")])).
Proof.
  refine (X13_upload_provider_failure secure_filename_safe
            (remote_down WriteOk (UploadFails (Exn "Error" "Invalid cloud_name")))
            (post_file "a.mp4") (cached (JStr "https://cdn/old.mp4"))
            (FileStorage "a.mp4" "...") (Exn "Error" "Invalid cloud_name")
            eq_refl _ eq_refl).
  discriminate.
Defined.



(** ** Where a resolved value comes from *)

(** X17: [get_last_video] never makes a value up: what it returns is
    [None], or the truthy [video_url] of the remote's reply, or the
    [video_url] stored in the cache file. *)
Theorem X17_resolved_value_provenance (E : env) (w : world) (v : json) :
  result_of (get_last_video E w) = Returned v ->
  v = JNull \/
  (exists u, remote_success E u v) \/
  (exists kvs, cache_file w = Holds (Doc (JObj kvs)) /\
               dict_get kvs "video_url" = Some v).
Proof.
  intros Hres.
  destruct (remote_success_or_failure E) as [Hfail | (u & v' & Hok)].
  - destruct (get_last_video_fallback E w Hfail) as (w' & Hrun & _).
    rewrite Hrun in Hres. simpl in Hres. injection Hres as Hv.
    destruct (cache_file w) as [| |[j|text]]; auto.
    destruct j; auto. unfold dict_get_default in Hv.
    destruct (dict_get kvs "video_url") as [v0|] eqn:Hfield; auto.
    right. right. exists kvs. split; congruence.
  - destruct (get_last_video_success E u v' w Hok) as (w' & Hrun & _).
    rewrite Hrun in Hres. simpl in Hres. injection Hres as <-.
    right. left. eauto.
Qed.

Lemma X17_witness :
  JStr "https://cdn/old.mp4" = JNull \/
  (exists u, remote_success (remote_says (JObj [("video_url", JBool false)]) WriteOk)
                            u (JStr "https://cdn/old.mp4")) \/
  (exists kvs,
     cache_file (cached (JStr "https://cdn/old.mp4")) = Holds (Doc (JObj kvs)) /\
     dict_get kvs "video_url" = Some (JStr "https://cdn/old.mp4")).
Proof.
  exact (X17_resolved_value_provenance
           (remote_says (JObj [("video_url", JBool false)]) WriteOk)
           (cached (JStr "https://cdn/old.mp4"))
           (JStr "https://cdn/old.mp4") eq_refl).
Defined.



(** * The console and the payload check *)

(** ** When print raises *)

(** [save_last_video] returns normally unless the write fails and the
    print of the warning line raises; then that second exception leaves the
    function. *)
Lemma strict_save_last_video_run
    (console : diag -> option exn) (E : env) (v : json) (w : world) :
  result_of (Strict.save_last_video console E v w) =
    match write_result E with
    | WriteOk => Returned tt
    | OpenFails e | DumpFails _ e =>
        match console (SaveFailed e) with
        | None => Returned tt
        | Some e' => Raised e'
        end
    end.
Proof.
  unfold Strict.save_last_video, Strict.print, try_except, open_w_json_dump.
  destruct (write_result E) as [|e|partial e]; simpl; try reflexivity;
    destruct (console (SaveFailed e)); reflexivity.
Qed.

(** C8 (code defect): the [except] handler of [save_last_video] prints a
    line that starts with a warning sign, and nothing catches what that
    [print] raises.  With a cache file that cannot be opened for writing
    and a console that cannot encode the sign, [save_last_video] raises
    [UnicodeEncodeError] to its caller; the write was attempted, the cache
    file is as before and nothing was printed. *)
Theorem C8_save_last_video_raises_from_its_handler :
  Strict.save_last_video ascii_console
    (remote_down (OpenFails PermissionError) (UploadFails PermissionError))
    (JStr "https://cdn/new.mp4") (cached (JStr "https://cdn/old.mp4"))
  = (Raised UnicodeEncodeError,
     World (Holds (Doc (JObj [("video_url", JStr "https://cdn/old.mp4")])))
           [OpenWrite VIDEO_STORE_FILE (JObj [("video_url", JStr "https://cdn/new.mp4")])]
           []).
Proof. reflexivity. Qed.

(** C6 (code defect): the handlers that swallow a failed POST print a line
    that starts with a warning sign, and that [print] is not protected.  On
    a console that cannot encode the sign, the same request gets another
    response when the sink is down than when it answers: [log_action]
    answers [{status: "error"}] instead of [{status: "ok", result:
    "failed"}], and [index] raises instead of rendering the page. *)
Theorem C6_failed_post_changes_the_response :
  result_of (Strict.log_action ascii_console
               (Env (Some script_url) "2025-01-01 10:00:00" (NoReply MissingSchema)
                    (Reply 200 (Garbage "OK")) WriteOk (UploadFails PermissionError))
               (post_json (JObj [("password", JStr "letmein")])) empty_world)
    = Returned (Jsonify [("status", JStr "ok"); ("result", JStr "failed")]) /\
  result_of (Strict.log_action ascii_console
               (Env (Some script_url) "2025-01-01 10:00:00" (NoReply MissingSchema)
                    (NoReply (Exn "ConnectTimeout" "timed out")) WriteOk
                    (UploadFails PermissionError))
               (post_json (JObj [("password", JStr "letmein")])) empty_world)
    = Returned (Jsonify [("status", JStr "error");
                         ("error", JStr (str UnicodeEncodeError))]) /\
  result_of (Strict.index ascii_console
               (Env (Some script_url) "2025-01-01 10:00:00"
                    (Reply 200 (Doc (JObj [("video_url", JStr "https://cdn/new.mp4")])))
                    (Reply 200 (Garbage "OK")) WriteOk (UploadFails PermissionError))
               (post_json JNull) empty_world)
    = Returned (RenderTemplate "index.html" (JStr "https://cdn/new.mp4")) /\
  result_of (Strict.index ascii_console
               (Env (Some script_url) "2025-01-01 10:00:00"
                    (Reply 200 (Doc (JObj [("video_url", JStr "https://cdn/new.mp4")])))
                    (NoReply (Exn "ConnectTimeout" "timed out")) WriteOk
                    (UploadFails PermissionError))
               (post_json JNull) empty_world)
    = Raised UnicodeEncodeError.
Proof. repeat split. Qed.

(** X1: [get_last_video] raises only through the [print] of its own
    [except] handler: on a console that takes the "Could not fetch" line it
    returns a value in every environment and on every state of the cache
    file, also when [save_last_video] raised. *)
Theorem X1_get_last_video_raises_only_from_print
    (console : diag -> option exn) (E : env) (w : world) :
  (forall e, console (FetchFailed e) = None) ->
  exists v, result_of (Strict.get_last_video console E w) = Returned v.
Proof.
  intros Hc.
  unfold Strict.get_last_video, Strict.save_last_video, Strict.print, bind,
    try_except, requests_get, open_w_json_dump.
  destruct w as [f cs out].
  assert (Hread : forall cs' out',
            exists v,
              result_of
                (bind os_path_exists
                   (fun present : bool =>
                      if present
                      then bind (try_except
                                   (bind open_r_json_load
                                      (fun data => bind (py_get data "video_url" JNull)
                                                     (fun v => ret (Some v))))
                                   (fun _ => ret None))
                                (fun read => match read with
                                             | Some v => ret v
                                             | None => ret JNull
                                             end)
                      else ret JNull)
                   (World f cs' out')) = Returned v).
  { intros cs' out'. destruct f as [| |[[]|]]; simpl; eexists; reflexivity. }
  unfold bind, try_except in Hread.
  case_url E; simpl; rewrite ?Hc; simpl; try apply Hread.
  destruct (get_reply E) as [st [j|text]|e]; simpl; rewrite ?Hc; simpl;
    try apply Hread.
  destruct j; simpl; rewrite ?Hc; simpl; try apply Hread.
  destruct (truthy (dict_get_default kvs "video_url" JNull)); simpl;
    try apply Hread.
  destruct (write_result E) as [|e|partial e]; simpl;
    try (eexists; reflexivity);
    destruct (console (SaveFailed e)); simpl; rewrite ?Hc; simpl;
    try (eexists; reflexivity); try apply Hread.
Qed.

Lemma X1_witness :
  exists v,
    result_of (Strict.get_last_video utf8_console
                 (remote_down WriteOk (UploadFails PermissionError))
                 (cached (JStr "https://cdn/old.mp4"))) = Returned v.
Proof.
  exact (X1_get_last_video_raises_only_from_print utf8_console
           (remote_down WriteOk (UploadFails PermissionError))
           (cached (JStr "https://cdn/old.mp4")) (fun _ => eq_refl)).
Defined.

(** On a console that cannot encode the warning sign the same call raises. *)
Example get_last_video_raises_on_ascii_console :
  result_of (Strict.get_last_video ascii_console
               (remote_down WriteOk (UploadFails PermissionError))
               (cached (JStr "https://cdn/old.mp4")))
  = Raised UnicodeEncodeError.
Proof. reflexivity. Qed.

(** ** The payload check of requests.post *)

Lemma json_finite_dict_get (kvs : dict) (k : string) (v : json) :
  json_finite (JObj kvs) = true ->
  dict_get kvs k = Some v ->
  json_finite v = true.
Proof.
  induction kvs as [|[k' v'] kvs IH]; simpl; [discriminate|].
  intros Hfin. apply andb_prop in Hfin. destruct Hfin as [Hv' Hrest].
  destruct (String.eqb k' k).
  - intros [= <-]. exact Hv'.
  - apply IH. exact Hrest.
Qed.

Lemma json_finite_dict_get_default (kvs : dict) (k : string) (default : json) :
  json_finite (JObj kvs) = true ->
  json_finite default = true ->
  json_finite (dict_get_default kvs k default) = true.
Proof.
  intros Hkvs Hdef. unfold dict_get_default.
  destruct (dict_get kvs k) as [v|] eqn:Hget; [|exact Hdef].
  exact (json_finite_dict_get kvs k v Hkvs Hget).
Qed.

Lemma json_finite_ip_address (req : request) :
  json_finite (ip_address_of req) = true.
Proof.
  unfold ip_address_of. destruct (forwarded_for req), (remote_addr req); reflexivity.
Qed.

(** On a console that takes every line the protected POST completes, as
    in [post_guarded_run]; a payload that is refused leaves no call. *)
Lemma strict_post_guarded_run (E : env) (payload : dict) (line : exn -> diag)
    (w : world) :
  exists w',
    Strict.post_guarded utf8_console E payload line w = (Returned tt, w') /\
    cache_file w' = cache_file w /\
    (json_finite (JObj payload) = false -> calls w' = calls w).
Proof.
  unfold Strict.post_guarded, Strict.requests_post, Strict.print, configured,
    try_except.
  destruct (json_finite (JObj payload)) eqn:Hfin; case_url E; simpl;
    try (exists w; repeat split; fail);
    try (destruct (post_reply E); eexists; (split; [reflexivity|]); simpl;
         (split; [reflexivity | discriminate])).
  eexists. split; [reflexivity|]. split; reflexivity.
Qed.

Lemma strict_post_guarded_finite (E : env) (payload : dict) (line : exn -> diag)
    (w : world) :
  json_finite (JObj payload) = true ->
  Strict.post_guarded utf8_console E payload line w = post_guarded E payload line w.
Proof.
  intros Hfin.
  unfold Strict.post_guarded, post_guarded, Strict.requests_post, requests_post,
    Strict.print, print, configured, try_except.
  rewrite Hfin.
  case_url E; reflexivity.
Qed.

(** For a body without [inf] or [nan], and on a console that takes every
    line, [log_action] runs as on the plain model. *)
Lemma strict_log_action_finite (E : env) (req : request) (w : world) (kvs : dict) :
  body req = Doc (JObj kvs) ->
  json_finite (JObj kvs) = true ->
  Strict.log_action utf8_console E req w = log_action E req w.
Proof.
  intros Hbody Hfin.
  unfold Strict.log_action, log_action, Strict.print, try_except, bind, get_json.
  rewrite Hbody. simpl.
  match goal with
  | |- context [Strict.post_guarded _ E ?p ?l ?w0] =>
      rewrite (strict_post_guarded_finite E p l w0)
  end; [reflexivity|].
  simpl. rewrite json_finite_ip_address.
  rewrite !json_finite_dict_get_default; auto.
Qed.

(** ** log_action on the console *)

(** X8: for a JSON object body without [inf] or [nan], a configured sink
    and a console that takes every line, [log_action] makes exactly one
    outside call, a POST to the sink, whatever the sink answers; the event
    carries the password attempt exactly as it was supplied (the secret
    itself when the attempt is right) and the same result as the
    response. *)
Theorem X8_log_action_forwards_attempt (E : env) (req : request) (w : world)
    (u : string) (kvs : dict) (pw : json) :
  GOOGLE_SCRIPT_URL E = Some u ->
  u <> "" ->
  body req = Doc (JObj kvs) ->
  json_finite (JObj kvs) = true ->
  dict_get kvs "password" = Some pw ->
  exists ts event ip result,
    calls (world_of (Strict.log_action utf8_console E req w)) =
      calls w ++ [HttpPost u [("timestamp", ts); ("event", event);
                              ("ip_address", ip); ("password_attempt", pw);
                              ("result", JStr result)]] /\
    result_of (Strict.log_action utf8_console E req w) =
      Returned (Jsonify [("status", JStr "ok"); ("result", JStr result)]).
Proof.
  intros Hurl Hu Hbody Hfin Hpw.
  rewrite (strict_log_action_finite E req w kvs Hbody Hfin).
  rewrite (log_action_object_posts E req w u kvs Hurl Hu Hbody).
  destruct (log_action_object E req w kvs Hbody) as (w' & Hrun).
  rewrite Hrun. unfold dict_get_default at 2 3 4 5 6 7. rewrite Hpw.
  do 4 eexists. split; reflexivity.
Qed.

Lemma X8_witness :
  exists ts event ip result,
    calls (world_of (Strict.log_action utf8_console
                       (remote_down WriteOk (UploadFails PermissionError))
                       (post_json (JObj [("password", JStr "23E51A05C1")]))
                       empty_world)) =
      [] ++ [HttpPost script_url
               [("timestamp", ts); ("event", event); ("ip_address", ip);
                ("password_attempt", JStr "23E51A05C1"); ("result", JStr result)]] /\
    result_of (Strict.log_action utf8_console
                 (remote_down WriteOk (UploadFails PermissionError))
                 (post_json (JObj [("password", JStr "23E51A05C1")]))
                 empty_world) =
      Returned (Jsonify [("status", JStr "ok"); ("result", JStr result)]).
Proof.
  refine (X8_log_action_forwards_attempt
            (remote_down WriteOk (UploadFails PermissionError))
            (post_json (JObj [("password", JStr "23E51A05C1")]))
            empty_world script_url [("password", JStr "23E51A05C1")]
            (JStr "23E51A05C1") eq_refl _ eq_refl eq_refl eq_refl).
  discriminate.
Defined.

(** A password that is an out-of-range float: [requests] refuses the
    payload, no call is made, and the response is still "ok". *)
Example log_action_refused_payload :
  Strict.log_action utf8_console
    (remote_says JNull WriteOk)
    (post_json (JObj [("password", JFloat (S754_infinity false))])) empty_world
  = (Returned (Jsonify [("status", JStr "ok"); ("result", JStr "failed")]),
     World Absent []
       [LOG (JObj [("password", JFloat (S754_infinity false))]);
        SheetLogFailed InvalidJSONError]).
Proof. reflexivity. Qed.

(** X9: the event name sent to the sink, for a JSON object body without
    [inf] or [nan], a configured sink and a console that takes every line.
    A supplied [action] is sent as it is, also when a password comes with
    it and also when it is empty; without an [action], the event is
    "password_attempt" for a truthy password and "unknown" otherwise. *)
Theorem X9_log_action_event_name (E : env) (req : request) (w : world)
    (u : string) (kvs : dict) :
  GOOGLE_SCRIPT_URL E = Some u ->
  u <> "" ->
  body req = Doc (JObj kvs) ->
  json_finite (JObj kvs) = true ->
  exists ts event rest,
    calls (world_of (Strict.log_action utf8_console E req w)) =
      calls w ++ [HttpPost u (("timestamp", ts) :: ("event", event) :: rest)] /\
    (forall a, dict_get kvs "action" = Some a -> event = a) /\
    (dict_get kvs "action" = None ->
     forall pw, dict_get kvs "password" = Some pw -> truthy pw = true ->
     event = JStr "password_attempt") /\
    (dict_get kvs "action" = None ->
     forall pw, dict_get kvs "password" = Some pw -> truthy pw = false ->
     event = JStr "unknown") /\
    (dict_get kvs "action" = None -> dict_get kvs "password" = None ->
     event = JStr "unknown").
Proof.
  intros Hurl Hu Hbody Hfin.
  rewrite (strict_log_action_finite E req w kvs Hbody Hfin).
  rewrite (log_action_object_posts E req w u kvs Hurl Hu Hbody).
  do 3 eexists. split; [reflexivity|].
  unfold dict_get_default. repeat split.
  - intros a ->. reflexivity.
  - intros -> pw -> ->. reflexivity.
  - intros -> pw -> ->. reflexivity.
  - intros -> ->. reflexivity.
Qed.

Lemma X9_witness :
  exists ts rest,
    calls (world_of (Strict.log_action utf8_console
                       (remote_down WriteOk (UploadFails PermissionError))
                       (post_json (JObj [("action", JStr "open_gift");
                                         ("password", JStr "letmein")]))
                       empty_world)) =
      [HttpPost script_url
         (("timestamp", ts) :: ("event", JStr "open_gift") :: rest)].
Proof.
  destruct (X9_log_action_event_name
              (remote_down WriteOk (UploadFails PermissionError))
              (post_json (JObj [("action", JStr "open_gift");
                                ("password", JStr "letmein")]))
              empty_world script_url
              [("action", JStr "open_gift"); ("password", JStr "letmein")]
              eq_refl)
    as (ts & event & rest & Hcalls & Haction & _);
    [discriminate | reflexivity | reflexivity |].
  exists ts, rest. rewrite Hcalls.
  rewrite (Haction (JStr "open_gift") eq_refl). reflexivity.
Defined.



Lemma strict_log_action_object (E : env) (req : request) (w : world) (kvs : dict) :
  body req = Doc (JObj kvs) ->
  exists r w',
    Strict.log_action utf8_console E req w =
      (Returned (Jsonify [("status", JStr "ok"); ("result", JStr r)]), w') /\
    cache_file w' = cache_file w.
Proof.
  intros Hbody.
  unfold Strict.log_action, Strict.print, try_except, bind, get_json.
  rewrite Hbody. simpl.
  match goal with
  | |- context [Strict.post_guarded _ E ?p ?l ?w0] =>
      destruct (strict_post_guarded_run E p l w0) as (w' & Hpost & Hsame & _)
  end.
  rewrite Hpost. simpl. do 2 eexists. split; [reflexivity | exact Hsame].
Qed.

(** X10: on a console that takes every line, [log_action] never raises
    and never changes the cache file; its response is a JSON object whose
    status is "ok" exactly when the body parsed to a JSON object (also when
    the sink is down or the payload is refused), and "error" in every other
    case. *)
Theorem X10_log_action_status (E : env) (req : request) (w : world) :
  exists d,
    result_of (Strict.log_action utf8_console E req w) = Returned (Jsonify d) /\
    cache_file (world_of (Strict.log_action utf8_console E req w)) = cache_file w /\
    (dict_get d "status" = Some (JStr "ok") \/
     dict_get d "status" = Some (JStr "error")) /\
    (dict_get d "status" = Some (JStr "ok") <->
     exists kvs, body req = Doc (JObj kvs)).
Proof.
  destruct (body req) as [j|text] eqn:Hbody.
  - assert (Hobj : (exists kvs, j = JObj kvs) \/ (forall kvs, j <> JObj kvs)).
    { destruct j; try (right; discriminate). left. eauto. }
    destruct Hobj as [(kvs & ->) | Hj].
    + destruct (strict_log_action_object E req w kvs Hbody) as (r & w' & Hrun & Hsame).
      rewrite Hrun. eexists. split; [reflexivity|]. split; [exact Hsame|].
      split; [left; reflexivity|]. split; eauto.
    + unfold Strict.log_action, Strict.print, try_except, bind, get_json.
      rewrite Hbody.
      destruct j; try (exfalso; eapply Hj; reflexivity); simpl;
        (eexists; split; [reflexivity|]; split; [reflexivity|];
         split; [right; reflexivity|]; split; [discriminate|];
         intros (kvs & [= Heq]); discriminate).
  - unfold Strict.log_action, Strict.print, try_except, bind, get_json.
    rewrite Hbody. simpl.
    eexists. split; [reflexivity|]. split; [reflexivity|].
    split; [right; reflexivity|]. split; [discriminate|].
    intros (kvs & Heq). discriminate.
Qed.

(** ** upload_story on the console *)

Section UploadOnConsole.

Variable secure_filename : string -> string.

Lemma strict_upload_story_uploaded (E : env) (req : request) (w : world)
    (video : file_storage) (result : dict) :
  files_get (files req) "video" = Some video ->
  filename video <> "" ->
  upload_reply E = UploadOk result ->
  exists w',
    Strict.upload_story utf8_console secure_filename E req w =
      (Returned (Jsonify [("status", JStr "ok");
                          ("video_url", dict_get_default result "secure_url" JNull)]),
       w').
Proof.
  intros Hfile Hname Hup.
  unfold Strict.upload_story, Strict.print, try_except, bind, files_contains,
    files_getitem, cloudinary_upload.
  rewrite Hfile. simpl.
  destruct (String.eqb_spec (filename video) ""); [contradiction|].
  rewrite Hup. simpl.
  match goal with
  | |- context [Strict.save_last_video utf8_console E ?v ?w0] =>
      change (Strict.save_last_video utf8_console E v w0)
        with (save_last_video E v w0);
      destruct (save_last_video_run E v w0) as (w1 & Hsave & _)
  end.
  rewrite Hsave.
  match goal with
  | |- context [Strict.post_guarded _ E ?p ?l ?w0] =>
      destruct (strict_post_guarded_run E p l w0) as (w2 & Hpost & _)
  end.
  rewrite Hpost. simpl. eauto.
Qed.

(** X16: on a console that takes every line, [upload_story] never raises;
    its response is a JSON object whose status is "ok" exactly when the
    request carries a "video" part with a non-empty filename and the upload
    call returned, and "error" in every other case. *)
Theorem X16_upload_status (E : env) (req : request) (w : world) :
  exists d,
    result_of (Strict.upload_story utf8_console secure_filename E req w) =
      Returned (Jsonify d) /\
    (dict_get d "status" = Some (JStr "ok") \/
     dict_get d "status" = Some (JStr "error")) /\
    (dict_get d "status" = Some (JStr "ok") <->
     exists video result,
       files_get (files req) "video" = Some video /\
       filename video <> "" /\
       upload_reply E = UploadOk result).
Proof.
  destruct (files_get (files req) "video") as [video|] eqn:Hfile.
  - destruct (String.eqb_spec (filename video) "") as [Hname|Hname].
    + unfold Strict.upload_story, try_except, bind, files_contains, files_getitem.
      rewrite Hfile. simpl. rewrite Hname. simpl.
      eexists. split; [reflexivity|]. split; [right; reflexivity|].
      split; [discriminate|].
      intros (video' & result & [= <-] & Hne & _). contradiction.
    + destruct (upload_reply E) as [result|e] eqn:Hup.
      * destruct (strict_upload_story_uploaded E req w video result
                    Hfile Hname Hup) as (w' & Hrun).
        rewrite Hrun. eexists. split; [reflexivity|]. split; [left; reflexivity|].
        split; [intros _; eauto | reflexivity].
      * unfold Strict.upload_story, Strict.print, try_except, bind, files_contains,
          files_getitem, cloudinary_upload.
        rewrite Hfile. simpl.
        destruct (String.eqb_spec (filename video) ""); [contradiction|].
        rewrite Hup. simpl.
        eexists. split; [reflexivity|]. split; [right; reflexivity|].
        split; [discriminate|].
        intros (video' & result & _ & _ & Hok). discriminate.
  - unfold Strict.upload_story, try_except, bind, files_contains.
    rewrite Hfile. simpl.
    eexists. split; [reflexivity|]. split; [right; reflexivity|].
    split; [discriminate|].
    intros (video' & result & Hsome & _). discriminate.
Qed.

End UploadOnConsole.

(** On a console that cannot encode the check mark, a successful upload is
    answered with an error, after the file has been stored by the provider
    and before the cache is written. *)
Example upload_story_fails_after_uploading :
  Strict.upload_story ascii_console secure_filename_safe
    (remote_down WriteOk
       (UploadOk [("secure_url", JStr "https://res.cloudinary.com/v/a.mp4")]))
    (post_file "a.mp4") empty_world
  = (Returned (Jsonify [("status", JStr "error");
                        ("error", JStr (str UnicodeEncodeError))]),
     World Absent [CloudinaryUpload (FileStorage "a.mp4" "...") "video" "stories"]
           [Uploading "a.mp4"; UploadError UnicodeEncodeError]).
Proof. reflexivity. Qed.
